(** * The RethinkDB connection bootstrap of deepstream.io-storage-rethinkdb

    A shallow embedding of [src/connection.js] (class [Connection]) and the
    properties of its connect / list / create / select handshake.

    The JavaScript class is written in continuation-passing style: every
    driver call takes a callback built by [_fn] and is the last statement of
    the method that issues it.  The embedding keeps that shape.  A method is a
    function from the driver's behaviour and the current world to an outcome;
    the callbacks handed to the driver are ordinary Rocq functions. *)

From Stdlib Require Import ZArith List SpecFloat.
From stdpp Require Import base option gmap strings list.
Import ListNotations.

Local Open Scope Z_scope.
Local Open Scope string_scope.

(** ** JavaScript values *)

Module JS.

(** Object references. *)
Definition loc := positive.

(** The values of the language.  Numbers are IEEE 754 doubles, objects
    (plain objects, arrays, functions, errors, connections) are references. *)
Inductive value : Type :=
| VUndefined
| VNull
| VBool (b : bool)
| VNumber (x : spec_float)
| VBigInt (n : Z)
| VString (s : string)
| VSymbol (id : positive)
| VObject (l : loc).

(** [ToBoolean]: what [if( v )] and [v || w] test. *)
Definition truthy (v : value) : bool :=
  match v with
  | VUndefined | VNull => false
  | VBool b => b
  | VNumber (S754_zero _) | VNumber S754_nan => false
  | VNumber _ => true
  | VBigInt n => negb (Z.eqb n 0)
  | VString s => negb (String.eqb s "")
  | VSymbol _ | VObject _ => true
  end.

(** [a || b] *)
Definition or_else (a b : value) : value := if truthy a then a else b.

(** [a === b] *)
Definition strict_equals (a b : value) : bool :=
  match a, b with
  | VUndefined, VUndefined => true
  | VNull, VNull => true
  | VBool x, VBool y => Bool.eqb x y
  | VNumber x, VNumber y => SFeqb x y
  | VBigInt x, VBigInt y => Z.eqb x y
  | VString x, VString y => String.eqb x y
  | VSymbol x, VSymbol y => Pos.eqb x y
  | VObject x, VObject y => Pos.eqb x y
  | _, _ => false
  end.

(** [Array.prototype.indexOf]: the first index whose element is [===] to the
    searched one, [-1] when there is none. *)
Fixpoint indexOf_from (k : Z) (elements : list value) (searched : value) : Z :=
  match elements with
  | [] => -1
  | element :: rest =>
      if strict_equals element searched then k
      else indexOf_from (k + 1) rest searched
  end.

Definition indexOf : list value -> value -> Z := indexOf_from 0.

(** An own data property: its value and whether it may be assigned to. *)
Record property : Type := Property {
  prop_value : value;
  writable : bool
}.

(** An object: its own data properties and whether properties may be added
    to it.  [Object.freeze] makes every property read-only and the object
    non-extensible, [Object.seal] and [Object.preventExtensions] make it
    non-extensible.  Accessor properties and inherited properties are not
    part of the model. *)
Record object : Type := Object {
  properties : gmap string property;
  extensible : bool
}.

(** The store maps references to the objects they denote. *)
Abbreviation store := (gmap loc object).

(** An object literal, and the same object after [Object.freeze]. *)
Definition plain (fields : gmap string value) : object :=
  {| properties := (fun v => Property v true) <$> fields;
     extensible := true |}.

Definition frozen (fields : gmap string value) : object :=
  {| properties := (fun v => Property v false) <$> fields;
     extensible := false |}.

(** [o.k] on an object: a missing property reads as [undefined]. *)
Definition get_prop (o : object) (k : string) : value :=
  default VUndefined (prop_value <$> properties o !! k).

(** Whether [o.k = x] is allowed: an existing property must be writable, a
    missing one can be created on an extensible object only. *)
Definition can_write (o : object) (k : string) : bool :=
  match properties o !! k with
  | Some p => writable p
  | None => extensible o
  end.

(** The object after [o.k = x]; a property created by an assignment is
    writable. *)
Definition set_prop (o : object) (k : string) (x : value) : object :=
  {| properties := <[k := Property x true]> (properties o);
     extensible := extensible o |}.

(** [v.k] for the property names used here.  Reading a property of [null] or
    [undefined] throws a TypeError ([None]); a primitive has no such property.
    A reference that denotes no object is not a value of any program. *)
Definition read_prop (σ : store) (v : value) (k : string) : option value :=
  match v with
  | VUndefined | VNull => None
  | VObject l => o ← σ !! l; Some (get_prop o k)
  | _ => Some VUndefined
  end.

(** [v.k = x] in strict mode (class bodies are strict).  Only objects can be
    assigned to, and only where [can_write] allows it; anything else throws a
    TypeError ([None]) and changes nothing. *)
Definition write_prop (σ : store) (v : value) (k : string) (x : value)
  : option store :=
  match v with
  | VObject l =>
      o ← σ !! l;
      if can_write o k then Some (<[l := set_prop o k x]> σ) else None
  | _ => None
  end.

End JS.
Import JS.

(** ** The driver boundary and the observable trace *)

(** The [rethinkdb] package is the environment of the class: its three
    operations take a callback and may invoke it later with
    [(error, result)]; nothing is assumed about which errors and results it
    passes.  The result has the type the operation documents: [connect]
    yields a connection, [dbList().run] an array, [dbCreate(name).run] a
    summary.  [use] is a method of the connection that takes no callback. *)
Inductive reply : Type :=
| connect_reply (error : value) (connection : value)
| dbList_reply (error : value) (dbList : list value)
| dbCreate_reply (error : value) (result : value).

(** The events of a run, in the order they happen. *)
Inductive event : Type :=
| Connect (options : value) (σ : store)
    (* rethinkdb.connect( options, cb ), the store as the driver sees it *)
| DbListRun (connection : value)
    (* rethinkdb.dbList().run( connection, cb ) *)
| DbCreateRun (name : value) (connection : value)
    (* rethinkdb.dbCreate( name ).run( connection, cb ) *)
| Use (connection : value) (db : value)
    (* connection.use( db ) *)
| Callback (f : value) (args : list value)
    (* this._callback( args ) *)
| Invoked (r : reply).
    (* the driver invokes the callback of an earlier request *)

(** The behaviour of the driver in one run.  Each request is answered by at
    most one invocation of its callback; [None] is a request whose callback
    has not been invoked. *)
Record driver : Type := Driver {
  on_connect : option (value * value);
  on_dbList : option (value * list value);
  on_dbCreate : option (value * value)
}.

(** ** The instance and the world *)

Record Connection : Type := mkConnection {
  _options : value;
  _callback : value;
  _connection : value;
  _database : value
}.

Record world : Type := World {
  heap : store;
  this : Connection;
  trace : list event
}.

(** The result of running the code until it returns to the event loop. *)
Inductive outcome : Type :=
| Returned (w : world)   (* no request is outstanding *)
| Awaiting (w : world)   (* a request is outstanding *)
| TypeError (w : world). (* the code threw; the instance is discarded *)

Definition world_of (r : outcome) : option world :=
  match r with
  | Returned w | Awaiting w => Some w
  | TypeError _ => None
  end.

(** The world in which the code stopped, also when it threw. *)
Definition world_after (r : outcome) : world :=
  match r with
  | Returned w | Awaiting w | TypeError w => w
  end.

(** A method body: it runs against the driver's behaviour in a world. *)
Definition turn : Type := driver -> world -> outcome.

Definition ret : turn := fun _ w => Returned w.

Definition throw : turn := fun _ w => TypeError w.

(** A statement changes the world; [s ;; k] runs [s] and continues as [k]. *)
Definition seq (s : world -> world) (k : turn) : turn :=
  fun d w => k d (s w).

Notation "s ;; k" := (seq s k) (at level 100, right associativity).

(** Access to the fields of [this] at the moment of the access. *)
Definition with_this (k : Connection -> turn) : turn :=
  fun d w => k (this w) d w.

Definition with_heap (k : store -> turn) : turn :=
  fun d w => k (heap w) d w.

Definition emit (e : event) (w : world) : world :=
  {| heap := heap w; this := this w; trace := trace w ++ [e] |}.

Definition set_heap (σ : store) (w : world) : world :=
  {| heap := σ; this := this w; trace := trace w |}.

Definition set_this (f : Connection -> Connection) (w : world) : world :=
  {| heap := heap w; this := f (this w); trace := trace w |}.

Definition set__options (v : value) (c : Connection) : Connection :=
  {| _options := v; _callback := _callback c;
     _connection := _connection c; _database := _database c |}.

Definition set__callback (v : value) (c : Connection) : Connection :=
  {| _options := _options c; _callback := v;
     _connection := _connection c; _database := _database c |}.

Definition set__connection (v : value) (c : Connection) : Connection :=
  {| _options := _options c; _callback := _callback c;
     _connection := v; _database := _database c |}.

Definition set__database (v : value) (c : Connection) : Connection :=
  {| _options := _options c; _callback := _callback c;
     _connection := _connection c; _database := v |}.

(** *** The three driver operations

    Each records the request, and then either the request stays outstanding
    or the driver invokes the callback it was given. *)

Definition rethinkdb_connect (options : value)
    (cb : value -> value -> turn) : turn :=
  with_heap (fun σ =>
    emit (Connect options σ) ;;
    fun d =>
      match on_connect d with
      | None => Awaiting
      | Some (error, connection) =>
          (emit (Invoked (connect_reply error connection)) ;;
           cb error connection) d
      end).

Definition rethinkdb_dbList_run (connection : value)
    (cb : value -> list value -> turn) : turn :=
  emit (DbListRun connection) ;;
  fun d =>
    match on_dbList d with
    | None => Awaiting
    | Some (error, dbList) =>
        (emit (Invoked (dbList_reply error dbList)) ;; cb error dbList) d
    end.

Definition rethinkdb_dbCreate_run (name connection : value)
    (cb : value -> value -> turn) : turn :=
  emit (DbCreateRun name connection) ;;
  fun d =>
    match on_dbCreate d with
    | None => Awaiting
    | Some (error, result) =>
        (emit (Invoked (dbCreate_reply error result)) ;; cb error result) d
    end.

(** ** The class [Connection] *)

(** [_fn( fn )]: the callback that forwards a truthy error to
    [this._callback] and otherwise calls [fn] with the result. *)
Definition _fn {A : Type} (fn : A -> turn) : value -> A -> turn :=
  fun error result =>
    if truthy error then
      with_this (fun this => emit (Callback (_callback this) [error]) ;; ret)
    else
      fn result.

(** [_onDb()] *)
Definition _onDb : turn :=
  with_this (fun this => emit (Use (_connection this) (_database this)) ;;
  with_this (fun this => emit (Callback (_callback this) [VNull]) ;;
  ret)).

(** [_onDbList( dbList )]; [_onDb] takes no parameter and ignores the result
    of the creation that [_fn] passes to it. *)
Definition _onDbList (dbList : list value) : turn :=
  with_this (fun this =>
    if Z.eqb (indexOf dbList (_database this)) (-1) then
      rethinkdb_dbCreate_run (_database this) (_connection this)
        (_fn (fun _ : value => _onDb))
    else
      _onDb).

(** [_onConnection( connection )] *)
Definition _onConnection (connection : value) : turn :=
  set_this (set__connection connection) ;;
  rethinkdb_dbList_run connection (_fn _onDbList).

(** [constructor( options, callback )] *)
Definition constructor (options callback : value) : turn :=
  set_this (set__options options) ;;
  set_this (set__callback callback) ;;
  set_this (set__connection VNull) ;;
  with_heap (fun σ =>
    match read_prop σ options "database" with
    | None => throw
    | Some database =>
        set_this (set__database (or_else database (VString "deepstream"))) ;;
        with_this (fun this => with_heap (fun σ =>
          match write_prop σ options "db" (_database this) with
          | None => throw
          | Some σ' =>
              set_heap σ' ;;
              rethinkdb_connect options (_fn _onConnection)
          end))
    end).

(** [get()] *)
Definition get (this : Connection) : value := _connection this.

(** [new Connection( options, callback )] in the store [σ], against the
    driver [d]. *)
Definition fresh : Connection :=
  {| _options := VUndefined; _callback := VUndefined;
     _connection := VUndefined; _database := VUndefined |}.

Definition bootstrap (σ : store) (options callback : value) (d : driver)
  : outcome :=
  constructor options callback d {| heap := σ; this := fresh; trace := [] |}.

(** ** Observations on traces *)

(** The fallible steps of the handshake. *)
Inductive step : Type := StepConnect | StepDbList | StepDbCreate.

Definition request_of (e : event) : option step :=
  match e with
  | Connect _ _ => Some StepConnect
  | DbListRun _ => Some StepDbList
  | DbCreateRun _ _ => Some StepDbCreate
  | _ => None
  end.

Definition answer_of (e : event) : option step :=
  match e with
  | Invoked (connect_reply _ _) => Some StepConnect
  | Invoked (dbList_reply _ _) => Some StepDbList
  | Invoked (dbCreate_reply _ _) => Some StepDbCreate
  | _ => None
  end.

Definition step_eqb (s t : step) : bool :=
  match s, t with
  | StepConnect, StepConnect | StepDbList, StepDbList
  | StepDbCreate, StepDbCreate => true
  | _, _ => false
  end.

Definition is_callback (e : event) : bool :=
  match e with Callback _ _ => true | _ => false end.

Definition is_request (e : event) : bool :=
  match request_of e with Some _ => true | None => false end.

Definition is_creation (e : event) : bool :=
  match e with DbCreateRun _ _ => true | _ => false end.

Definition is_listing (e : event) : bool :=
  match e with DbListRun _ => true | _ => false end.

Definition is_selection (e : event) : bool :=
  match e with Use _ _ => true | _ => false end.

(** The invocations of the completion callback, the requests sent to the
    driver, and so on, in order. *)
Definition callbacks : list event -> list event := List.filter is_callback.
Definition requests : list event -> list event := List.filter is_request.
Definition creations : list event -> list event := List.filter is_creation.
Definition listings : list event -> list event := List.filter is_listing.
Definition selections : list event -> list event := List.filter is_selection.

(** The last request of a trace. *)
Definition last_request (t : list event) : option step :=
  fold_left (fun cur e =>
               match request_of e with Some s => Some s | None => cur end)
            t None.

(** The request of a trace whose callback has not been invoked yet. *)
Definition outstanding (t : list event) : option step :=
  fold_left (fun cur e =>
               match request_of e, answer_of e, cur with
               | Some s, _, _ => Some s
               | None, Some a, Some s => if step_eqb a s then None else cur
               | None, _, _ => cur
               end)
            t None.

(** The driver has invoked the callback of step [s] in the trace [t]. *)
Definition invoked (s : step) (t : list event) : Prop :=
  exists r : reply, In (Invoked r) t /\ answer_of (Invoked r) = Some s.

(** Where an event may stand in a run whose steps are strictly ordered.
    The connect request opens the run.  The listing request comes after the
    invocation of the connect callback, the creation request after the
    invocation of the listing callback, [use] and the completion callback
    after the invocation of the callback of the last request; none of them
    happens while a request is outstanding.  A driver callback answers the
    outstanding request. *)
Definition in_order (pre : list event) (e : event) : Prop :=
  match e with
  | Connect _ _ => pre = []
  | DbListRun _ => invoked StepConnect pre /\ outstanding pre = None
  | DbCreateRun _ _ => invoked StepDbList pre /\ outstanding pre = None
  | Use _ _ | Callback _ _ =>
      (exists s : step, last_request pre = Some s /\ invoked s pre) /\
      outstanding pre = None
  | Invoked _ => outstanding pre = answer_of e
  end.

(** [in_order] at every position of a trace that extends [pre]. *)
Fixpoint all_in_order (pre t : list event) : Prop :=
  match t with
  | [] => True
  | e :: t' => in_order pre e ∧ all_in_order (pre ++ [e]) t'
  end.

(** ** What the constructor leaves behind *)

(** [options.database || 'deepstream'] on the caller's object. *)
Definition database_of (o : object) : value :=
  or_else (get_prop o "database") (VString "deepstream").

(** The caller's object after [options.db = this._database]. *)
Definition store_after (σ : store) (l : loc) (o : object) : store :=
  <[l := set_prop o "db" (database_of o)]> σ.

(** The instance when the constructor has assigned its four fields. *)
Definition constructed (l : loc) (o : object) (callback : value)
  : Connection :=
  {| _options := VObject l; _callback := callback;
     _connection := VNull; _database := database_of o |}.

(** The instance when [_onConnection] has stored the connection. *)
Definition connected (l : loc) (o : object) (callback connection : value)
  : Connection :=
  {| _options := VObject l; _callback := callback;
     _connection := connection; _database := database_of o |}.

(** ** Every run is one of eight, or the constructor throws *)

(** The world of a run: the caller's store after the constructor, the
    instance, and the events that followed the connect request. *)
Definition world_at (σ : store) (l : loc) (o : object) (this : Connection)
    (t : list event) : world :=
  {| heap := store_after σ l o; this := this;
     trace := Connect (VObject l) (store_after σ l o) :: t |}.

Inductive run (σ : store) (l : loc) (o : object) (callback : value)
    (d : driver) : outcome -> Prop :=
| R_thrown :
    can_write o "db" = false ->
    run σ l o callback d
      (TypeError {| heap := σ; this := constructed l o callback;
                    trace := [] |})
| R_connecting :
    on_connect d = None ->
    run σ l o callback d
      (Awaiting (world_at σ l o (constructed l o callback) []))
| R_refused error connection :
    on_connect d = Some (error, connection) ->
    truthy error = true ->
    run σ l o callback d
      (Returned (world_at σ l o (constructed l o callback)
         [Invoked (connect_reply error connection);
          Callback callback [error]]))
| R_listing error connection :
    on_connect d = Some (error, connection) ->
    truthy error = false ->
    on_dbList d = None ->
    run σ l o callback d
      (Awaiting (world_at σ l o (connected l o callback connection)
         [Invoked (connect_reply error connection);
          DbListRun connection]))
| R_unlisted error connection error' dbList :
    on_connect d = Some (error, connection) ->
    truthy error = false ->
    on_dbList d = Some (error', dbList) ->
    truthy error' = true ->
    run σ l o callback d
      (Returned (world_at σ l o (connected l o callback connection)
         [Invoked (connect_reply error connection);
          DbListRun connection;
          Invoked (dbList_reply error' dbList);
          Callback callback [error']]))
| R_found error connection error' dbList :
    on_connect d = Some (error, connection) ->
    truthy error = false ->
    on_dbList d = Some (error', dbList) ->
    truthy error' = false ->
    indexOf dbList (database_of o) <> -1 ->
    run σ l o callback d
      (Returned (world_at σ l o (connected l o callback connection)
         [Invoked (connect_reply error connection);
          DbListRun connection;
          Invoked (dbList_reply error' dbList);
          Use connection (database_of o);
          Callback callback [VNull]]))
| R_creating error connection error' dbList :
    on_connect d = Some (error, connection) ->
    truthy error = false ->
    on_dbList d = Some (error', dbList) ->
    truthy error' = false ->
    indexOf dbList (database_of o) = -1 ->
    on_dbCreate d = None ->
    run σ l o callback d
      (Awaiting (world_at σ l o (connected l o callback connection)
         [Invoked (connect_reply error connection);
          DbListRun connection;
          Invoked (dbList_reply error' dbList);
          DbCreateRun (database_of o) connection]))
| R_uncreated error connection error' dbList error'' result :
    on_connect d = Some (error, connection) ->
    truthy error = false ->
    on_dbList d = Some (error', dbList) ->
    truthy error' = false ->
    indexOf dbList (database_of o) = -1 ->
    on_dbCreate d = Some (error'', result) ->
    truthy error'' = true ->
    run σ l o callback d
      (Returned (world_at σ l o (connected l o callback connection)
         [Invoked (connect_reply error connection);
          DbListRun connection;
          Invoked (dbList_reply error' dbList);
          DbCreateRun (database_of o) connection;
          Invoked (dbCreate_reply error'' result);
          Callback callback [error'']]))
| R_created error connection error' dbList error'' result :
    on_connect d = Some (error, connection) ->
    truthy error = false ->
    on_dbList d = Some (error', dbList) ->
    truthy error' = false ->
    indexOf dbList (database_of o) = -1 ->
    on_dbCreate d = Some (error'', result) ->
    truthy error'' = false ->
    run σ l o callback d
      (Returned (world_at σ l o (connected l o callback connection)
         [Invoked (connect_reply error connection);
          DbListRun connection;
          Invoked (dbList_reply error' dbList);
          DbCreateRun (database_of o) connection;
          Invoked (dbCreate_reply error'' result);
          Use connection (database_of o);
          Callback callback [VNull]])).

(** ** Sample inputs *)

(** [{database: "testdb", host: "x", port: 1}] at reference 1. *)
Definition sample_options : object :=
  plain {[ "database" := VString "testdb"; "host" := VString "x";
           "port" := VNumber (S754_finite false 1 0) ]}.

Definition sample_store : store := {[ 1%positive := sample_options ]}.

(** [{database: ""}] at reference 1. *)
Definition empty_name_options : object :=
  plain {[ "database" := VString "" ]}.
Definition empty_name_store : store := {[ 1%positive := empty_name_options ]}.

Definition sample_callback : value := VObject 2%positive.
Definition sample_connection : value := VObject 3%positive.
Definition sample_error : value := VObject 4%positive.

(** The driver has connected and has not yet answered the listing. *)
Definition listing_pending : driver :=
  Driver (Some (VNull, sample_connection)) None None.

(** The driver has connected and listed the target database. *)
Definition database_listed : driver :=
  Driver (Some (VNull, sample_connection))
         (Some (VNull, [VString "other"; VString "testdb"])) None.

(** The driver has connected, listed other databases and created the
    target, or failed to create it. *)
Definition database_created : driver :=
  Driver (Some (VNull, sample_connection))
         (Some (VNull, [VString "other"]))
         (Some (VNull, VObject 5%positive)).

Definition creation_refused : driver :=
  Driver (Some (VNull, sample_connection))
         (Some (VNull, [VString "other"]))
         (Some (sample_error, VUndefined)).

Definition connection_refused : driver :=
  Driver (Some (sample_error, VUndefined)) None None.

Definition listing_refused : driver :=
  Driver (Some (VNull, sample_connection)) (Some (sample_error, [])) None.

Definition silent : driver := Driver None None None.

(** The error of a reply. *)
Definition error_of (r : reply) : value :=
  match r with
  | connect_reply error _ | dbList_reply error _ | dbCreate_reply error _ =>
      error
  end.

(** ** Further observations *)

(** The event [e] was issued from the fields of the instance as they are in
    [w]: the connect request on [this._options] and the store, the other
    requests and [use] on [this._connection] and [this._database], the
    completion callback as [this._callback]. *)
Definition uses_fields (w : world) (e : event) : Prop :=
  match e with
  | Connect options σ => options = _options (this w) /\ σ = heap w
  | DbListRun connection => connection = _connection (this w)
  | DbCreateRun name connection =>
      name = _database (this w) /\ connection = _connection (this w)
  | Use connection db =>
      connection = _connection (this w) /\ db = _database (this w)
  | Callback f _ => f = _callback (this w)
  | Invoked _ => True
  end.

(** [d'] is [d] later in the same run: the callbacks [d] has invoked are
    invoked by [d'] with the same arguments. *)
Definition later (d d' : driver) : Prop :=
  (on_connect d = None \/ on_connect d' = on_connect d) /\
  (on_dbList d = None \/ on_dbList d' = on_dbList d) /\
  (on_dbCreate d = None \/ on_dbCreate d' = on_dbCreate d).

(** The steps in the order of the handshake. *)
Definition handshake_steps : list (option step) :=
  [Some StepConnect; Some StepDbList; Some StepDbCreate].

(** The driver passes the number [0] as the error of the connect callback. *)
Definition zero_error : value := VNumber (S754_zero false).

Definition connected_with_zero : driver :=
  Driver (Some (zero_error, sample_connection)) None None.

(** [{database: "testdb", host: "x", port: 1, db: "mine"}] at reference 1. *)
Definition own_db_options : object :=
  set_prop sample_options "db" (VString "mine").

(** [Object.freeze( {database: "testdb"} )] at reference 1. *)
Definition frozen_options : object :=
  frozen {[ "database" := VString "testdb" ]}.

Definition frozen_store : store := {[ 1%positive := frozen_options ]}.


(** * Proofs *)

(** ** Facts about values *)

Lemma truthy_not_null v : truthy v = true -> v <> VNull.
Proof. intros Ht ->. discriminate. Qed.

(** The errors of the error-first convention, [null] or an error object,
    are truthy exactly when they are not [null]. *)
Lemma error_object_truthy v :
  v = VNull \/ (exists l, v = VObject l) -> truthy v = true <-> v <> VNull.
Proof.
  intros [->|[l ->]]; simpl; split; done.
Qed.

Lemma or_else_truthy a b : truthy b = true -> truthy (or_else a b) = true.
Proof. intros Hb. unfold or_else. destruct (truthy a) eqn:Ha; assumption. Qed.

Lemma database_of_truthy o : truthy (database_of o) = true.
Proof. apply or_else_truthy. reflexivity. Qed.

Lemma SFeqb_truthy x y :
  truthy (VNumber y) = true -> SFeqb x y = true -> x = y.
Proof.
  unfold SFeqb.
  destruct x as [sx|sx| |sx mx ex], y as [sy|sy| |sy my ey]; simpl;
    try discriminate; intros _;
    try destruct sx; try destruct sy; simpl; try discriminate;
    try reflexivity.
  all: destruct (Z.compare_spec ex ey) as [->| |]; try discriminate.
  all: change (PosDef.Pos.compare_cont Eq mx my) with (Pos.compare mx my).
  all: destruct (Pos.compare_spec mx my) as [->| |]; simpl;
    try discriminate; reflexivity.
Qed.

Lemma SFeqb_refl_truthy x : truthy (VNumber x) = true -> SFeqb x x = true.
Proof.
  unfold SFeqb. destruct x as [s|s| |s m e]; simpl; try discriminate; intros _.
  - destruct s; reflexivity.
  - rewrite Z.compare_refl.
    change (PosDef.Pos.compare_cont Eq m m) with (Pos.compare m m).
    rewrite Pos.compare_refl. destruct s; reflexivity.
Qed.

(** On a truthy value [===] is equality: the values that are not [===] to
    themselves (NaN) or [===] to another value (the two zeros) are falsy. *)
Lemma strict_equals_truthy v x :
  truthy x = true -> strict_equals v x = true <-> v = x.
Proof.
  intros Hx. split.
  - destruct v, x; simpl; try discriminate; intros H.
    + apply Bool.eqb_prop in H. congruence.
    + f_equal. by apply SFeqb_truthy.
    + apply Z.eqb_eq in H. congruence.
    + apply String.eqb_eq in H. congruence.
    + apply Pos.eqb_eq in H. congruence.
    + apply Pos.eqb_eq in H. congruence.
  - intros ->. destruct x; simpl in *; try discriminate.
    + apply Bool.eqb_reflx.
    + by apply SFeqb_refl_truthy.
    + apply Z.eqb_refl.
    + apply String.eqb_refl.
    + apply Pos.eqb_refl.
    + apply Pos.eqb_refl.
Qed.

Lemma indexOf_from_absent k elements searched :
  0 <= k ->
  indexOf_from k elements searched = -1 <->
  Forall (fun element => strict_equals element searched = false) elements.
Proof.
  revert k. induction elements as [|element rest IH]; intros k Hk; simpl.
  - split; [constructor | reflexivity].
  - destruct (strict_equals element searched) eqn:Heq.
    + split; [lia|]. intros H. inversion H; congruence.
    + rewrite IH by lia. split; [by constructor | by inversion 1].
Qed.

(** [dbList.indexOf( name ) === -1] says that [name] is not an element of
    [dbList], for the names the constructor can store. *)
Lemma indexOf_absent dbList name :
  truthy name = true -> indexOf dbList name = -1 <-> ~ In name dbList.
Proof.
  intros Hname. unfold indexOf. rewrite indexOf_from_absent by lia.
  rewrite List.Forall_forall. split.
  - intros Hall Hin. specialize (Hall _ Hin).
    rewrite (proj2 (strict_equals_truthy name name Hname) eq_refl) in Hall.
    discriminate.
  - intros Hout element Hin.
    destruct (strict_equals element name) eqn:Heq; [|reflexivity].
    apply strict_equals_truthy in Heq; [|assumption]. congruence.
Qed.

Lemma indexOf_present dbList name :
  truthy name = true -> In name dbList -> indexOf dbList name <> -1.
Proof. intros Hname Hin Hout. by apply indexOf_absent in Hout. Qed.

(** ** The methods, one by one *)

Lemma _fn_error {A : Type} (fn : A -> turn) error result d w :
  truthy error = true ->
  _fn fn error result d w =
  Returned (emit (Callback (_callback (this w)) [error]) w).
Proof. intros Herr. unfold _fn. rewrite Herr. reflexivity. Qed.

Lemma _fn_ok {A : Type} (fn : A -> turn) error result d w :
  truthy error = false -> _fn fn error result d w = fn result d w.
Proof. intros Hok. unfold _fn. rewrite Hok. reflexivity. Qed.

Lemma _onDb_selects d w :
  _onDb d w =
  Returned (emit (Callback (_callback (this w)) [VNull])
              (emit (Use (_connection (this w)) (_database (this w))) w)).
Proof. reflexivity. Qed.

Lemma _onDbList_present dbList d w :
  indexOf dbList (_database (this w)) <> -1 ->
  _onDbList dbList d w = _onDb d w.
Proof.
  intros Hin. unfold _onDbList, with_this.
  destruct (Z.eqb_spec (indexOf dbList (_database (this w))) (-1)); congruence.
Qed.

Lemma _onDbList_absent dbList d w :
  indexOf dbList (_database (this w)) = -1 ->
  _onDbList dbList d w =
  let w' := emit (DbCreateRun (_database (this w)) (_connection (this w))) w in
  match on_dbCreate d with
  | None => Awaiting w'
  | Some (error, result) =>
      _fn (fun _ : value => _onDb) error result d
        (emit (Invoked (dbCreate_reply error result)) w')
  end.
Proof.
  intros Hout. unfold _onDbList, with_this. rewrite Hout. simpl.
  unfold rethinkdb_dbCreate_run, seq.
  destruct (on_dbCreate d) as [[error result]|]; reflexivity.
Qed.

Lemma _onConnection_lists connection d w :
  _onConnection connection d w =
  let w' := emit (DbListRun connection)
              (set_this (set__connection connection) w) in
  match on_dbList d with
  | None => Awaiting w'
  | Some (error, dbList) =>
      _fn _onDbList error dbList d
        (emit (Invoked (dbList_reply error dbList)) w')
  end.
Proof.
  unfold _onConnection, rethinkdb_dbList_run, seq.
  destruct (on_dbList d) as [[error dbList]|]; reflexivity.
Qed.

(** ** The runs of the handshake

    The options are an object [o] at [l] in the caller's store.  When
    [options.db] cannot be assigned the constructor throws; when it can, each
    lemma gives the world in which one kind of run ends or waits. *)

Section Runs.

Variables (σ : store) (l : loc) (o : object) (callback : value).
Hypothesis options_object : σ !! l = Some o.

(** When [options.db] cannot be assigned, the constructor throws on the
    assignment: nothing has been requested and the store is as it was. *)
Lemma constructor_refuses (d : driver) :
  can_write o "db" = false ->
  bootstrap σ (VObject l) callback d =
  TypeError {| heap := σ; this := constructed l o callback; trace := [] |}.
Proof.
  intros Hro.
  unfold bootstrap, constructor, rethinkdb_connect, seq, with_heap, with_this.
  simpl. rewrite options_object. simpl. rewrite options_object. simpl.
  rewrite Hro. reflexivity.
Qed.

Hypothesis options_writable : can_write o "db" = true.

Lemma constructor_connects (d : driver) :
  bootstrap σ (VObject l) callback d =
  match on_connect d with
  | None =>
      Awaiting {| heap := store_after σ l o; this := constructed l o callback;
                  trace := [Connect (VObject l) (store_after σ l o)] |}
  | Some (error, connection) =>
      _fn _onConnection error connection d
        {| heap := store_after σ l o; this := constructed l o callback;
           trace := [Connect (VObject l) (store_after σ l o);
                     Invoked (connect_reply error connection)] |}
  end.
Proof.
  unfold bootstrap, constructor, rethinkdb_connect, seq, with_heap, with_this.
  simpl. rewrite options_object. simpl. rewrite options_object. simpl.
  rewrite options_writable.
  destruct (on_connect d) as [[error connection]|]; reflexivity.
Qed.

Lemma run_awaiting_connect d :
  on_connect d = None ->
  bootstrap σ (VObject l) callback d =
  Awaiting {| heap := store_after σ l o; this := constructed l o callback;
              trace := [Connect (VObject l) (store_after σ l o)] |}.
Proof. intros Hc. rewrite constructor_connects, Hc. reflexivity. Qed.

Lemma run_connect_failed d error connection :
  on_connect d = Some (error, connection) ->
  truthy error = true ->
  bootstrap σ (VObject l) callback d =
  Returned {| heap := store_after σ l o; this := constructed l o callback;
              trace := [Connect (VObject l) (store_after σ l o);
                        Invoked (connect_reply error connection);
                        Callback callback [error]] |}.
Proof.
  intros Hc Herr. rewrite constructor_connects, Hc, _fn_error by done.
  reflexivity.
Qed.

Lemma run_awaiting_dbList d error connection :
  on_connect d = Some (error, connection) ->
  truthy error = false ->
  on_dbList d = None ->
  bootstrap σ (VObject l) callback d =
  Awaiting {| heap := store_after σ l o;
              this := connected l o callback connection;
              trace := [Connect (VObject l) (store_after σ l o);
                        Invoked (connect_reply error connection);
                        DbListRun connection] |}.
Proof.
  intros Hc Hok Hl.
  rewrite constructor_connects, Hc, _fn_ok, _onConnection_lists, Hl by done.
  reflexivity.
Qed.

Lemma run_dbList_failed d error connection error' dbList :
  on_connect d = Some (error, connection) ->
  truthy error = false ->
  on_dbList d = Some (error', dbList) ->
  truthy error' = true ->
  bootstrap σ (VObject l) callback d =
  Returned {| heap := store_after σ l o;
              this := connected l o callback connection;
              trace := [Connect (VObject l) (store_after σ l o);
                        Invoked (connect_reply error connection);
                        DbListRun connection;
                        Invoked (dbList_reply error' dbList);
                        Callback callback [error']] |}.
Proof.
  intros Hc Hok Hl Herr.
  rewrite constructor_connects, Hc, _fn_ok, _onConnection_lists, Hl by done.
  cbv zeta. rewrite _fn_error by done. reflexivity.
Qed.

Lemma run_present d error connection error' dbList :
  on_connect d = Some (error, connection) ->
  truthy error = false ->
  on_dbList d = Some (error', dbList) ->
  truthy error' = false ->
  indexOf dbList (database_of o) <> -1 ->
  bootstrap σ (VObject l) callback d =
  Returned {| heap := store_after σ l o;
              this := connected l o callback connection;
              trace := [Connect (VObject l) (store_after σ l o);
                        Invoked (connect_reply error connection);
                        DbListRun connection;
                        Invoked (dbList_reply error' dbList);
                        Use connection (database_of o);
                        Callback callback [VNull]] |}.
Proof.
  intros Hc Hok Hl Hok' Hin.
  rewrite constructor_connects, Hc, _fn_ok, _onConnection_lists, Hl by done.
  cbv zeta. rewrite _fn_ok, _onDbList_present, _onDb_selects by done.
  reflexivity.
Qed.

Lemma run_awaiting_dbCreate d error connection error' dbList :
  on_connect d = Some (error, connection) ->
  truthy error = false ->
  on_dbList d = Some (error', dbList) ->
  truthy error' = false ->
  indexOf dbList (database_of o) = -1 ->
  on_dbCreate d = None ->
  bootstrap σ (VObject l) callback d =
  Awaiting {| heap := store_after σ l o;
              this := connected l o callback connection;
              trace := [Connect (VObject l) (store_after σ l o);
                        Invoked (connect_reply error connection);
                        DbListRun connection;
                        Invoked (dbList_reply error' dbList);
                        DbCreateRun (database_of o) connection] |}.
Proof.
  intros Hc Hok Hl Hok' Hout Hk.
  rewrite constructor_connects, Hc, _fn_ok, _onConnection_lists, Hl by done.
  cbv zeta. rewrite _fn_ok, _onDbList_absent, Hk by done.
  reflexivity.
Qed.

Lemma run_dbCreate_failed d error connection error' dbList error'' result :
  on_connect d = Some (error, connection) ->
  truthy error = false ->
  on_dbList d = Some (error', dbList) ->
  truthy error' = false ->
  indexOf dbList (database_of o) = -1 ->
  on_dbCreate d = Some (error'', result) ->
  truthy error'' = true ->
  bootstrap σ (VObject l) callback d =
  Returned {| heap := store_after σ l o;
              this := connected l o callback connection;
              trace := [Connect (VObject l) (store_after σ l o);
                        Invoked (connect_reply error connection);
                        DbListRun connection;
                        Invoked (dbList_reply error' dbList);
                        DbCreateRun (database_of o) connection;
                        Invoked (dbCreate_reply error'' result);
                        Callback callback [error'']] |}.
Proof.
  intros Hc Hok Hl Hok' Hout Hk Herr.
  rewrite constructor_connects, Hc, _fn_ok, _onConnection_lists, Hl by done.
  cbv zeta. rewrite _fn_ok, _onDbList_absent, Hk by done.
  cbv zeta. rewrite _fn_error by done. reflexivity.
Qed.

Lemma run_created d error connection error' dbList error'' result :
  on_connect d = Some (error, connection) ->
  truthy error = false ->
  on_dbList d = Some (error', dbList) ->
  truthy error' = false ->
  indexOf dbList (database_of o) = -1 ->
  on_dbCreate d = Some (error'', result) ->
  truthy error'' = false ->
  bootstrap σ (VObject l) callback d =
  Returned {| heap := store_after σ l o;
              this := connected l o callback connection;
              trace := [Connect (VObject l) (store_after σ l o);
                        Invoked (connect_reply error connection);
                        DbListRun connection;
                        Invoked (dbList_reply error' dbList);
                        DbCreateRun (database_of o) connection;
                        Invoked (dbCreate_reply error'' result);
                        Use connection (database_of o);
                        Callback callback [VNull]] |}.
Proof.
  intros Hc Hok Hl Hok' Hout Hk Hok''.
  rewrite constructor_connects, Hc, _fn_ok, _onConnection_lists, Hl by done.
  cbv zeta. rewrite _fn_ok, _onDbList_absent, Hk by done.
  cbv zeta. rewrite _fn_ok, _onDb_selects by done. reflexivity.
Qed.

End Runs.

(** ** Every run is one of the eight *)

Lemma bootstrap_run σ l o callback d :
  σ !! l = Some o -> run σ l o callback d (bootstrap σ (VObject l) callback d).
Proof.
  intros Hobj.
  destruct (can_write o "db") eqn:Hcw;
    [|rewrite (constructor_refuses _ _ _ _ Hobj d Hcw); by constructor].
  destruct (on_connect d) as [[error connection]|] eqn:Hc;
    [|rewrite (run_awaiting_connect _ _ _ _ Hobj Hcw d Hc); by constructor].
  destruct (truthy error) eqn:He;
    [erewrite run_connect_failed by eassumption; by econstructor|].
  destruct (on_dbList d) as [[error' dbList]|] eqn:Hl;
    [|erewrite run_awaiting_dbList by eassumption; by econstructor].
  destruct (truthy error') eqn:He';
    [erewrite run_dbList_failed by eassumption; by econstructor|].
  destruct (Z.eq_dec (indexOf dbList (database_of o)) (-1)) as [Hout|Hin];
    [|erewrite run_present by eassumption; by econstructor].
  destruct (on_dbCreate d) as [[error'' result]|] eqn:Hk;
    [|erewrite run_awaiting_dbCreate by eassumption; by econstructor].
  destruct (truthy error'') eqn:He'';
    [erewrite run_dbCreate_failed by eassumption; by econstructor|].
  erewrite run_created by eassumption. by econstructor.
Qed.

Lemma all_in_order_split t :
  forall pre0 : list event, all_in_order pre0 t ->
  forall (pre : list event) (e : event) (post : list event),
    t = (pre ++ e :: post)%list -> in_order (pre0 ++ pre)%list e.
Proof.
  induction t as [|a t IH]; intros pre0 Hall pre e post Heq.
  - destruct pre; discriminate.
  - destruct Hall as [Ha Hall]. destruct pre as [|b pre]; simpl in Heq.
    + injection Heq as -> _. by rewrite app_nil_r.
    + injection Heq as -> ->.
      specialize (IH _ Hall pre e post eq_refl).
      by rewrite <- app_assoc in IH.
Qed.

(** ** The completion callback *)

(** C1. In a run of the constructor on an options object, the completion
    callback is invoked exactly once: when the constructor can assign
    [options.db], so that there is an instance, a driver that invokes the
    callback of every request it receives, whatever errors and results it
    passes, makes the code return with no request outstanding; whenever the
    code has so returned, the trace holds exactly one invocation of the
    callback, with one argument that is either [null] or a truthy, hence
    non-null, error; and while a request is outstanding the callback has not
    been invoked. *)
Theorem callback_exactly_once σ l o callback :
  σ !! l = Some o ->
  (can_write o "db" = true ->
   forall c ls k, exists w,
      bootstrap σ (VObject l) callback (Driver (Some c) (Some ls) (Some k))
      = Returned w) /\
  (forall d w,
      bootstrap σ (VObject l) callback d = Returned w ->
      exists e, callbacks (trace w) = [Callback callback [e]] /\
                (e = VNull /\ truthy e = false \/
                 e <> VNull /\ truthy e = true)) /\
  (forall d w,
      bootstrap σ (VObject l) callback d = Awaiting w ->
      callbacks (trace w) = []).
Proof.
  intros Hobj. split; [|split].
  - intros Hcw c ls k.
    destruct (bootstrap_run σ l o callback
                (Driver (Some c) (Some ls) (Some k)) Hobj);
      simpl in *; try discriminate; try congruence; eauto.
  - intros d w.
    destruct (bootstrap_run σ l o callback d Hobj);
      intros Hw; try discriminate Hw; injection Hw as <-;
      eexists; (split; [reflexivity|]); auto using truthy_not_null.
  - intros d w.
    destruct (bootstrap_run σ l o callback d Hobj);
      intros Hw; try discriminate Hw; injection Hw as <-; reflexivity.
Qed.

Lemma callback_exactly_once_witness :
  (forall c ls k, exists w,
      bootstrap sample_store (VObject 1%positive) sample_callback
        (Driver (Some c) (Some ls) (Some k)) = Returned w) /\
  (forall d w,
      bootstrap sample_store (VObject 1%positive) sample_callback d = Returned w ->
      exists e, callbacks (trace w) = [Callback sample_callback [e]] /\
                (e = VNull /\ truthy e = false \/
                 e <> VNull /\ truthy e = true)) /\
  (forall d w,
      bootstrap sample_store (VObject 1%positive) sample_callback d = Awaiting w ->
      callbacks (trace w) = []).
Proof.
  destruct (callback_exactly_once sample_store 1%positive sample_options
              sample_callback eq_refl) as (Hreturns & Honce & Hnone).
  split; [exact (Hreturns eq_refl)|]. split; assumption.
Defined.

(** ** The handle accessor *)

(** C2, as stated, fails: when the driver has connected and the listing is
    still outstanding, the completion callback has not been invoked and
    [get()] already returns the connection. *)
Lemma get_returns_handle_while_listing :
  ~ (forall w,
       world_of (bootstrap sample_store (VObject 1%positive) sample_callback
                   listing_pending) = Some w ->
       ~ In (Callback sample_callback [VNull]) (trace w) ->
       get (this w) = VNull).
Proof.
  intros Hclaim.
  specialize (Hclaim _ eq_refl). simpl in Hclaim.
  discriminate Hclaim. intros [H|[H|[H|[]]]]; discriminate H.
Qed.

(** C2, amended.  At every point of a run [get()] returns [null] until the
    driver has invoked the connect callback with a falsy error; from that
    invocation on it returns the connection the driver passed, whether the
    later steps are outstanding, have failed or have succeeded. *)
Theorem get_follows_connect σ l o callback d w :
  σ !! l = Some o ->
  world_of (bootstrap σ (VObject l) callback d) = Some w ->
  get (this w) =
  match on_connect d with
  | Some (error, connection) => if truthy error then VNull else connection
  | None => VNull
  end.
Proof.
  intros Hobj.
  destruct (bootstrap_run σ l o callback d Hobj);
    intros Hw; try discriminate Hw; injection Hw as <-;
    repeat match goal with H : _ = _ |- _ => rewrite H end; reflexivity.
Qed.

Lemma get_follows_connect_witness :
  get (this (world_at sample_store 1%positive sample_options
               (connected 1%positive sample_options sample_callback
                  sample_connection)
               [Invoked (connect_reply VNull sample_connection);
                DbListRun sample_connection]))
  = sample_connection.
Proof.
  apply (get_follows_connect sample_store 1%positive sample_options
           sample_callback listing_pending); reflexivity.
Defined.

(** ** The target database is listed *)

(** C3, as stated, fails: the completion callback is invoked with [null]
    alone, the connection is not passed as a second argument. *)
Lemma callback_receives_no_handle :
  ~ (forall w,
       bootstrap sample_store (VObject 1%positive) sample_callback
         database_listed = Returned w ->
       In (Callback sample_callback [VNull; sample_connection]) (trace w)).
Proof.
  intros Hclaim. specialize (Hclaim _ eq_refl). simpl in Hclaim.
  repeat destruct Hclaim as [Hclaim|Hclaim]; discriminate Hclaim || done.
Qed.

(** C3, amended.  On an options object whose [db] can be assigned, when
    the connect and listing callbacks are invoked with falsy errors and the target name is an element of the listed names, no
    creation is requested, [use] is called on the connection with the target
    name, and then the completion callback is invoked with the single
    argument [null]; the connection is what [get()] returns from then on. *)
Theorem listed_database_is_selected
    σ l o callback error connection error' dbList k :
  σ !! l = Some o ->
  can_write o "db" = true ->
  truthy error = false ->
  truthy error' = false ->
  In (database_of o) dbList ->
  exists w,
    bootstrap σ (VObject l) callback
      (Driver (Some (error, connection)) (Some (error', dbList)) k)
    = Returned w /\
    trace w = [Connect (VObject l) (heap w);
               Invoked (connect_reply error connection);
               DbListRun connection;
               Invoked (dbList_reply error' dbList);
               Use connection (database_of o);
               Callback callback [VNull]] /\
    creations (trace w) = [] /\
    get (this w) = connection.
Proof.
  intros Hobj Hcw Hok Hok' Hin. eexists. split.
  - eapply run_present; eauto.
    apply indexOf_present; [apply database_of_truthy | assumption].
  - repeat split.
Qed.

Lemma listed_database_is_selected_witness :
  exists w,
    bootstrap sample_store (VObject 1%positive) sample_callback
      database_listed = Returned w /\
    trace w = [Connect (VObject 1%positive) (heap w);
               Invoked (connect_reply VNull sample_connection);
               DbListRun sample_connection;
               Invoked (dbList_reply VNull [VString "other"; VString "testdb"]);
               Use sample_connection (database_of sample_options);
               Callback sample_callback [VNull]] /\
    creations (trace w) = [] /\
    get (this w) = sample_connection.
Proof.
  apply (listed_database_is_selected sample_store 1%positive sample_options
           sample_callback VNull sample_connection VNull
           [VString "other"; VString "testdb"] None).
  - reflexivity.
  - reflexivity.
  - reflexivity.
  - reflexivity.
  - vm_compute. right. left. reflexivity.
Defined.

(** ** The target name *)

(** C4, as stated, fails: an options object whose [database] is the empty
    string does not make the empty string the target name. *)
Lemma empty_database_name_is_replaced :
  ~ (forall w,
       world_of (bootstrap empty_name_store (VObject 1%positive)
                   sample_callback silent) = Some w ->
       _database (this w) = VString "").
Proof.
  intros Hclaim. specialize (Hclaim _ eq_refl). vm_compute in Hclaim.
  discriminate Hclaim.
Qed.

(** C4, amended.  At every point of a run the target name [this._database]
    is ["deepstream"] when the options have no [database] (the property is
    missing or [undefined]), and is the configured string when [database] is a
    non-empty string; the empty string counts as unset and gives
    ["deepstream"]. *)
Theorem target_database_name σ l o callback d w :
  σ !! l = Some o ->
  world_of (bootstrap σ (VObject l) callback d) = Some w ->
  (get_prop o "database" = VUndefined ->
   _database (this w) = VString "deepstream") /\
  (forall s, get_prop o "database" = VString s -> s <> "" ->
   _database (this w) = VString s) /\
  (get_prop o "database" = VString "" ->
   _database (this w) = VString "deepstream").
Proof.
  intros Hobj.
  assert (Hname : _database (this w) = database_of o ->
    (get_prop o "database" = VUndefined ->
     _database (this w) = VString "deepstream") /\
    (forall s, get_prop o "database" = VString s -> s <> "" ->
     _database (this w) = VString s) /\
    (get_prop o "database" = VString "" ->
     _database (this w) = VString "deepstream")).
  { intros ->. unfold database_of, or_else. repeat split.
    - intros ->. reflexivity.
    - intros s -> Hs. simpl.
      destruct (String.eqb_spec s ""); [contradiction | reflexivity].
    - intros ->. reflexivity. }
  destruct (bootstrap_run σ l o callback d Hobj);
    intros Hw; try discriminate Hw; injection Hw as <-; apply Hname;
    reflexivity.
Qed.

Lemma target_database_name_witness :
  (get_prop sample_options "database" = VUndefined ->
   _database (constructed 1%positive sample_options sample_callback)
   = VString "deepstream") /\
  (forall s, get_prop sample_options "database" = VString s -> s <> "" ->
   _database (constructed 1%positive sample_options sample_callback)
   = VString s) /\
  (get_prop sample_options "database" = VString "" ->
   _database (constructed 1%positive sample_options sample_callback)
   = VString "deepstream").
Proof.
  apply (target_database_name sample_store 1%positive sample_options
           sample_callback silent
           (world_at sample_store 1%positive sample_options
              (constructed 1%positive sample_options sample_callback) []));
    reflexivity.
Defined.

(** ** The target database is not listed *)

(** C5. On an options object whose [db] can be assigned, when the connect
    and listing callbacks are invoked with falsy errors and the target name is not an element of the listed names, creation is
    requested exactly once, for that name on the connection.  When the driver
    invokes the creation callback with a falsy error, [use] is called and
    then the completion callback with [null]; when it invokes it with a
    truthy error, the completion callback receives that error and [use] is
    never called. *)
Theorem unlisted_database_is_created
    σ l o callback error connection error' dbList error'' result :
  σ !! l = Some o ->
  can_write o "db" = true ->
  truthy error = false ->
  truthy error' = false ->
  ~ In (database_of o) dbList ->
  exists w,
    bootstrap σ (VObject l) callback
      (Driver (Some (error, connection)) (Some (error', dbList))
              (Some (error'', result)))
    = Returned w /\
    creations (trace w) = [DbCreateRun (database_of o) connection] /\
    (truthy error'' = false ->
     trace w = [Connect (VObject l) (heap w);
                Invoked (connect_reply error connection);
                DbListRun connection;
                Invoked (dbList_reply error' dbList);
                DbCreateRun (database_of o) connection;
                Invoked (dbCreate_reply error'' result);
                Use connection (database_of o);
                Callback callback [VNull]]) /\
    (truthy error'' = true ->
     trace w = [Connect (VObject l) (heap w);
                Invoked (connect_reply error connection);
                DbListRun connection;
                Invoked (dbList_reply error' dbList);
                DbCreateRun (database_of o) connection;
                Invoked (dbCreate_reply error'' result);
                Callback callback [error'']] /\
     selections (trace w) = []).
Proof.
  intros Hobj Hcw Hok Hok' Hout.
  apply indexOf_absent in Hout; [|apply database_of_truthy].
  destruct (truthy error'') eqn:Hk; eexists; (split;
    [ first [ by eapply run_dbCreate_failed; eauto
            | by eapply run_created; eauto ] |]);
    repeat split; intros; done.
Qed.

Lemma unlisted_database_is_created_witness :
  exists w,
    bootstrap sample_store (VObject 1%positive) sample_callback
      creation_refused = Returned w /\
    creations (trace w)
    = [DbCreateRun (database_of sample_options) sample_connection] /\
    (truthy sample_error = false ->
     trace w = [Connect (VObject 1%positive) (heap w);
                Invoked (connect_reply VNull sample_connection);
                DbListRun sample_connection;
                Invoked (dbList_reply VNull [VString "other"]);
                DbCreateRun (database_of sample_options) sample_connection;
                Invoked (dbCreate_reply sample_error VUndefined);
                Use sample_connection (database_of sample_options);
                Callback sample_callback [VNull]]) /\
    (truthy sample_error = true ->
     trace w = [Connect (VObject 1%positive) (heap w);
                Invoked (connect_reply VNull sample_connection);
                DbListRun sample_connection;
                Invoked (dbList_reply VNull [VString "other"]);
                DbCreateRun (database_of sample_options) sample_connection;
                Invoked (dbCreate_reply sample_error VUndefined);
                Callback sample_callback [sample_error]] /\
     selections (trace w) = []).
Proof.
  apply (unlisted_database_is_created sample_store 1%positive sample_options
           sample_callback VNull sample_connection VNull [VString "other"]
           sample_error VUndefined).
  - reflexivity.
  - reflexivity.
  - reflexivity.
  - reflexivity.
  - vm_compute. intros [H|[]]. discriminate H.
Defined.

(** ** Failures *)

(** C6. On an options object whose [db] can be assigned, when the driver
    invokes the connect callback with an error (a truthy
    value, as every error object is), the completion callback is invoked
    exactly once, with that error, which is not [null]; nothing else
    happens: no listing and no creation is requested, and [get()] still
    returns [null]. *)
Theorem connect_failure_is_reported σ l o callback d error connection :
  σ !! l = Some o ->
  can_write o "db" = true ->
  on_connect d = Some (error, connection) ->
  truthy error = true ->
  exists w,
    bootstrap σ (VObject l) callback d = Returned w /\
    trace w = [Connect (VObject l) (heap w);
               Invoked (connect_reply error connection);
               Callback callback [error]] /\
    error <> VNull /\
    get (this w) = VNull /\
    listings (trace w) = [] /\
    creations (trace w) = [].
Proof.
  intros Hobj Hcw Hc Herr. eexists. split.
  - eapply run_connect_failed; eauto.
  - repeat split. by apply truthy_not_null.
Qed.

Lemma connect_failure_is_reported_witness :
  exists w,
    bootstrap sample_store (VObject 1%positive) sample_callback
      connection_refused = Returned w /\
    trace w = [Connect (VObject 1%positive) (heap w);
               Invoked (connect_reply sample_error VUndefined);
               Callback sample_callback [sample_error]] /\
    sample_error <> VNull /\
    get (this w) = VNull /\
    listings (trace w) = [] /\
    creations (trace w) = [].
Proof.
  apply (connect_failure_is_reported sample_store 1%positive sample_options
           sample_callback connection_refused sample_error VUndefined);
    reflexivity.
Defined.

(** C7. On an options object whose [db] can be assigned, when the driver
    invokes the connect callback with a falsy error and
    the listing callback with an error (a truthy value), the completion
    callback is invoked exactly once, with the listing error, and no creation
    is requested. *)
Theorem listing_failure_is_reported
    σ l o callback d error connection error' dbList :
  σ !! l = Some o ->
  can_write o "db" = true ->
  on_connect d = Some (error, connection) ->
  truthy error = false ->
  on_dbList d = Some (error', dbList) ->
  truthy error' = true ->
  exists w,
    bootstrap σ (VObject l) callback d = Returned w /\
    trace w = [Connect (VObject l) (heap w);
               Invoked (connect_reply error connection);
               DbListRun connection;
               Invoked (dbList_reply error' dbList);
               Callback callback [error']] /\
    callbacks (trace w) = [Callback callback [error']] /\
    creations (trace w) = [].
Proof.
  intros Hobj Hcw Hc Hok Hl Herr. eexists. split.
  - eapply run_dbList_failed; eauto.
  - repeat split.
Qed.

Lemma listing_failure_is_reported_witness :
  exists w,
    bootstrap sample_store (VObject 1%positive) sample_callback
      listing_refused = Returned w /\
    trace w = [Connect (VObject 1%positive) (heap w);
               Invoked (connect_reply VNull sample_connection);
               DbListRun sample_connection;
               Invoked (dbList_reply sample_error []);
               Callback sample_callback [sample_error]] /\
    callbacks (trace w) = [Callback sample_callback [sample_error]] /\
    creations (trace w) = [].
Proof.
  apply (listing_failure_is_reported sample_store 1%positive sample_options
           sample_callback listing_refused VNull sample_connection
           sample_error []); reflexivity.
Defined.

(** C8. Whichever step fails - the driver invokes the callback of a connect,
    listing or creation request with an error (a truthy value) - the very
    next event is the invocation of the completion callback with that same
    value as its only argument, and it is the last event of the run and the
    only invocation of the completion callback; every step was requested at
    most once, so nothing was retried. *)
Theorem errors_are_passed_unchanged σ l o callback d w r :
  σ !! l = Some o ->
  world_of (bootstrap σ (VObject l) callback d) = Some w ->
  In (Invoked r) (trace w) ->
  truthy (error_of r) = true ->
  (exists pre : list event,
     trace w = (pre ++ [Invoked r; Callback callback [error_of r]])%list) /\
  callbacks (trace w) = [Callback callback [error_of r]] /\
  List.NoDup (List.map request_of (requests (trace w))).
Proof.
  intros Hobj.
  destruct (bootstrap_run σ l o callback d Hobj);
    intros Hw; try discriminate Hw; injection Hw as <-; simpl; intros Hin Herr;
    repeat (destruct Hin as [Hin|Hin];
            [try discriminate Hin; injection Hin as <-; simpl in Herr;
             try congruence|]);
    try contradiction.
  all: split; [|split; [reflexivity|]].
  all: try (repeat constructor; simpl; intuition discriminate).
  - by exists [Connect (VObject l) (store_after σ l o)].
  - by exists [Connect (VObject l) (store_after σ l o);
               Invoked (connect_reply error connection);
               DbListRun connection].
  - by exists [Connect (VObject l) (store_after σ l o);
               Invoked (connect_reply error connection);
               DbListRun connection;
               Invoked (dbList_reply error' dbList);
               DbCreateRun (database_of o) connection].
Qed.

Lemma errors_are_passed_unchanged_witness :
  (exists pre : list event,
     trace (world_at sample_store 1%positive sample_options
              (connected 1%positive sample_options sample_callback
                 sample_connection)
              [Invoked (connect_reply VNull sample_connection);
               DbListRun sample_connection;
               Invoked (dbList_reply VNull [VString "other"]);
               DbCreateRun (database_of sample_options) sample_connection;
               Invoked (dbCreate_reply sample_error VUndefined);
               Callback sample_callback [sample_error]])
     = (pre ++ [Invoked (dbCreate_reply sample_error VUndefined);
                Callback sample_callback
                  [error_of (dbCreate_reply sample_error VUndefined)]])%list)
  /\
  callbacks
    (trace (world_at sample_store 1%positive sample_options
              (connected 1%positive sample_options sample_callback
                 sample_connection)
              [Invoked (connect_reply VNull sample_connection);
               DbListRun sample_connection;
               Invoked (dbList_reply VNull [VString "other"]);
               DbCreateRun (database_of sample_options) sample_connection;
               Invoked (dbCreate_reply sample_error VUndefined);
               Callback sample_callback [sample_error]]))
  = [Callback sample_callback
       [error_of (dbCreate_reply sample_error VUndefined)]] /\
  List.NoDup (List.map request_of (requests
    (trace (world_at sample_store 1%positive sample_options
              (connected 1%positive sample_options sample_callback
                 sample_connection)
              [Invoked (connect_reply VNull sample_connection);
               DbListRun sample_connection;
               Invoked (dbList_reply VNull [VString "other"]);
               DbCreateRun (database_of sample_options) sample_connection;
               Invoked (dbCreate_reply sample_error VUndefined);
               Callback sample_callback [sample_error]])))).
Proof.
  apply (errors_are_passed_unchanged sample_store 1%positive sample_options
           sample_callback creation_refused).
  - reflexivity.
  - reflexivity.
  - simpl. do 5 right. left. reflexivity.
  - reflexivity.
Defined.

(** ** Order of the steps *)

(** C9. At every point of a run the events so far are in order: the
    listing request comes after the invocation of the connect callback, the
    creation request after the invocation of the listing callback, and
    [use] and the completion callback after the invocation of the callback
    of the last request; whenever one of them happens, no request is
    outstanding. *)
Theorem steps_are_ordered σ l o callback d w :
  σ !! l = Some o ->
  world_of (bootstrap σ (VObject l) callback d) = Some w ->
  forall (pre : list event) (e : event) (post : list event),
    trace w = (pre ++ e :: post)%list -> in_order pre e.
Proof.
  intros Hobj Hw pre e post Hsplit.
  apply (all_in_order_split (trace w) [] ) with (post := post);
    [|assumption].
  clear Hsplit. revert Hw.
  destruct (bootstrap_run σ l o callback d Hobj);
    intros Hw; try discriminate Hw; injection Hw as <-;
    cbv [world_at trace all_in_order in_order app invoked In];
    repeat split; eauto 20.
Qed.

Lemma steps_are_ordered_witness :
  in_order
    [Connect (VObject 1%positive)
       (store_after sample_store 1%positive sample_options);
     Invoked (connect_reply VNull sample_connection);
     DbListRun sample_connection;
     Invoked (dbList_reply VNull [VString "other"])]
    (DbCreateRun (database_of sample_options) sample_connection).
Proof.
  apply (steps_are_ordered sample_store 1%positive sample_options
           sample_callback database_created
           (world_at sample_store 1%positive sample_options
              (connected 1%positive sample_options sample_callback
                 sample_connection)
              [Invoked (connect_reply VNull sample_connection);
               DbListRun sample_connection;
               Invoked (dbList_reply VNull [VString "other"]);
               DbCreateRun (database_of sample_options) sample_connection;
               Invoked (dbCreate_reply VNull (VObject 5%positive));
               Use sample_connection (database_of sample_options);
               Callback sample_callback [VNull]]))
    with (post := [Invoked (dbCreate_reply VNull (VObject 5%positive));
                   Use sample_connection (database_of sample_options);
                   Callback sample_callback [VNull]]);
    reflexivity.
Defined.

(** ** The caller's options object *)

(** C10, as stated, fails: on a frozen options object the assignment
    [options.db = this._database] throws, and the object has no [db]
    afterwards although its [database] is the truthy string ["testdb"]. *)
Lemma frozen_options_are_not_written :
  ~ (exists o' : object,
       heap (world_after (bootstrap frozen_store (VObject 1%positive)
                            sample_callback silent)) !! 1%positive
       = Some o' /\
       get_prop o' "db" = VString "testdb").
Proof.
  intros (o' & Hstored & Hdb).
  vm_compute in Hstored. injection Hstored as <-.
  vm_compute in Hdb. discriminate Hdb.
Qed.

Lemma store_after_lookup (σ : store) (l : loc) (o : object) :
  store_after σ l o !! l = Some (set_prop o "db" (database_of o)).
Proof. apply lookup_insert_eq. Qed.

Lemma get_prop_set_prop (o : object) (k : string) (x : value) :
  get_prop (set_prop o k x) k = x.
Proof. unfold get_prop, set_prop. simpl. by rewrite lookup_insert_eq. Qed.

(** C10, amended.  When [db] can be assigned on the caller's options object
    (it is a writable property, or it is missing and the object is
    extensible), the constructor writes the target name into it before it
    issues the connect request: at every point of the run the object holds
    [options.database] as [db] when that is truthy and ["deepstream"]
    otherwise, its other properties, its extensibility and the other objects
    of the store are as they were, and the connect request, the first event
    of the run, was issued on the store so updated.  When [db] cannot be
    assigned (a frozen object, a sealed or non-extensible one without [db], a
    read-only [db]) the constructor throws a TypeError: no request has been
    issued and the store is unchanged. *)
Theorem constructor_writes_db σ l o callback d :
  σ !! l = Some o ->
  (can_write o "db" = true ->
   exists (w : world) (o' : object),
     world_of (bootstrap σ (VObject l) callback d) = Some w /\
     heap w !! l = Some o' /\
     (truthy (get_prop o "database") = true ->
      get_prop o' "db" = get_prop o "database") /\
     (truthy (get_prop o "database") = false ->
      get_prop o' "db" = VString "deepstream") /\
     (forall k : string, k <> "db" -> properties o' !! k = properties o !! k) /\
     extensible o' = extensible o /\
     (forall l' : loc, l' <> l -> heap w !! l' = σ !! l') /\
     (exists rest, trace w = Connect (VObject l) (heap w) :: rest)) /\
  (can_write o "db" = false ->
   exists w : world,
     bootstrap σ (VObject l) callback d = TypeError w /\
     trace w = [] /\ heap w = σ).
Proof.
  intros Hobj. split.
  - intros Hcw.
    assert (Hstore :
      (truthy (get_prop o "database") = true ->
       get_prop (set_prop o "db" (database_of o)) "db"
       = get_prop o "database") /\
      (truthy (get_prop o "database") = false ->
       get_prop (set_prop o "db" (database_of o)) "db"
       = VString "deepstream") /\
      (forall k : string, k <> "db" ->
       properties (set_prop o "db" (database_of o)) !! k
       = properties o !! k) /\
      (forall l' : loc, l' <> l -> store_after σ l o !! l' = σ !! l')).
    { rewrite get_prop_set_prop. unfold database_of, or_else.
      repeat split.
      - by intros ->.
      - by intros ->.
      - intros k Hk. simpl. by apply lookup_insert_ne.
      - intros l' Hl'. by apply lookup_insert_ne. }
    destruct Hstore as (H1 & H2 & H3 & H4).
    pose proof (store_after_lookup σ l o) as H0.
    destruct (bootstrap_run σ l o callback d Hobj);
      [congruence|..];
      eexists _, (set_prop o "db" (database_of o));
      (split; [reflexivity|]); simpl; eauto 12.
  - intros Hro. eexists. split; [by apply constructor_refuses|]. done.
Qed.

Lemma constructor_writes_db_witness :
  (exists (w : world) (o' : object),
     world_of (bootstrap sample_store (VObject 1%positive) sample_callback
                 database_created) = Some w /\
     heap w !! 1%positive = Some o' /\
     get_prop o' "db" = VString "testdb") /\
  (exists w : world,
     bootstrap frozen_store (VObject 1%positive) sample_callback
       database_created = TypeError w /\
     trace w = [] /\ heap w = frozen_store).
Proof.
  split.
  - destruct (proj1 (constructor_writes_db sample_store 1%positive
                       sample_options sample_callback database_created
                       eq_refl) eq_refl)
      as (w & o' & Hw & Hstored & Hdb & _).
    exists w, o'. split; [exact Hw|]. split; [exact Hstored|].
    exact (Hdb eq_refl).
  - exact (proj2 (constructor_writes_db frozen_store 1%positive
                    frozen_options sample_callback database_created
                    eq_refl) eq_refl).
Defined.

(** * Further properties of the class *)

Lemma split_at_cons {A : Type} (pre : list A) (x : A) (post : list A)
    (a : A) (t : list A) :
  (pre ++ x :: post)%list = a :: t ->
  pre = [] /\ x = a /\ post = t \/
  exists pre' : list A, pre = a :: pre' /\ (pre' ++ x :: post)%list = t.
Proof.
  destruct pre as [|b pre]; simpl; intros H.
  - injection H as -> ->. left. done.
  - injection H as -> H. right. by exists pre.
Qed.

Lemma split_at_nil {A : Type} (pre : list A) (x : A) (post : list A) :
  (pre ++ x :: post)%list <> [].
Proof. destruct pre; discriminate. Qed.

(** Every way to cut a trace that is written out. *)
Ltac cut_trace H :=
  symmetry in H;
  repeat (apply split_at_cons in H;
          let K := fresh "K" in
          destruct H as [(-> & K & ->)|[? [-> K]]]; rename K into H;
          [try discriminate H|]);
  try (exfalso; exact (split_at_nil _ _ _ H)).

(** ** Options that are no object *)

(** X1. When [options] is not an object ([undefined], [null], a boolean, a
    number, a string, ...) the constructor throws a TypeError, on reading
    [options.database] or on assigning [options.db]; when it throws, no event
    has happened - no connect request was issued and the completion callback
    was not invoked - and the store is as it was, whatever the driver would
    answer. *)
Theorem constructor_throws_without_object σ options callback d :
  (forall l, options <> VObject l) ->
  exists w : world,
    bootstrap σ options callback d = TypeError w /\
    trace w = [] /\ heap w = σ.
Proof.
  intros Hno.
  destruct options; try (eexists; split; [reflexivity|]; done).
  by destruct (Hno l).
Qed.

Lemma constructor_throws_without_object_witness :
  exists w : world,
    bootstrap sample_store (VString "localhost") sample_callback
      database_created = TypeError w /\
    trace w = [] /\ heap w = sample_store.
Proof.
  apply (constructor_throws_without_object sample_store (VString "localhost")
           sample_callback database_created).
  intros l. discriminate.
Defined.

(** ** Errors that are falsy *)

(** X2. [_fn] tests [if( error )]: a driver callback invoked with a falsy
    error - [null], but also [undefined], [false], [0], [NaN] or the empty
    string - counts as a success.  In every run the event after such an
    invocation is the next request or the call of [use], never the completion
    callback with that value. *)
Theorem falsy_error_continues σ l o callback d w r pre post :
  σ !! l = Some o ->
  world_of (bootstrap σ (VObject l) callback d) = Some w ->
  trace w = (pre ++ Invoked r :: post)%list ->
  truthy (error_of r) = false ->
  exists (e : event) (post' : list event),
    post = e :: post' /\ (is_request e = true \/ is_selection e = true).
Proof.
  intros Hobj.
  destruct (bootstrap_run σ l o callback d Hobj);
    intros Hw; try discriminate Hw; injection Hw as <-; cbv [world_at trace];
    intros Hcut Hfalsy; cut_trace Hcut;
    injection Hcut as ->; simpl in Hfalsy; try congruence;
    eexists _, _; (split; [reflexivity|]); simpl; auto.
Qed.

Lemma falsy_error_continues_witness :
  exists (e : event) (post' : list event),
    [DbListRun sample_connection] = e :: post' /\
    (is_request e = true \/ is_selection e = true).
Proof.
  apply (falsy_error_continues sample_store 1%positive sample_options
           sample_callback connected_with_zero
           (world_at sample_store 1%positive sample_options
              (connected 1%positive sample_options sample_callback
                 sample_connection)
              [Invoked (connect_reply zero_error sample_connection);
               DbListRun sample_connection])
           (connect_reply zero_error sample_connection)
           [Connect (VObject 1%positive)
              (store_after sample_store 1%positive sample_options)]
           [DbListRun sample_connection]); reflexivity.
Defined.

(** ** The end of a run *)

(** X3. Nothing follows the completion callback.  In every run an
    invocation of a completion callback is the last event: it calls the
    function given to the constructor, no invocation precedes it, the code
    has returned with no request outstanding, and no request, [use] or second
    invocation comes after it. *)
Theorem completion_callback_is_last σ l o callback d w pre f args post :
  σ !! l = Some o ->
  world_of (bootstrap σ (VObject l) callback d) = Some w ->
  trace w = (pre ++ Callback f args :: post)%list ->
  post = [] /\ f = callback /\ callbacks pre = [] /\
  bootstrap σ (VObject l) callback d = Returned w.
Proof.
  intros Hobj.
  destruct (bootstrap_run σ l o callback d Hobj);
    intros Hw; try discriminate Hw; injection Hw as <-; cbv [world_at trace];
    intros Hcut; cut_trace Hcut; injection Hcut as -> ->; done.
Qed.

Lemma completion_callback_is_last_witness :
  @nil event = [] /\ sample_callback = sample_callback /\
  callbacks
    [Connect (VObject 1%positive)
       (store_after sample_store 1%positive sample_options);
     Invoked (connect_reply sample_error VUndefined)] = [] /\
  bootstrap sample_store (VObject 1%positive) sample_callback
    connection_refused
  = Returned
      (world_at sample_store 1%positive sample_options
         (constructed 1%positive sample_options sample_callback)
         [Invoked (connect_reply sample_error VUndefined);
          Callback sample_callback [sample_error]]).
Proof.
  apply (completion_callback_is_last sample_store 1%positive sample_options
           sample_callback connection_refused
           (world_at sample_store 1%positive sample_options
              (constructed 1%positive sample_options sample_callback)
              [Invoked (connect_reply sample_error VUndefined);
               Callback sample_callback [sample_error]])
           [Connect (VObject 1%positive)
              (store_after sample_store 1%positive sample_options);
            Invoked (connect_reply sample_error VUndefined)]
           sample_callback [sample_error] []); reflexivity.
Defined.

(** X4. Selection and success come together.  In every run in which [use]
    has been called or a completion callback has been invoked with [null],
    the run ends with the call of [use] on the stored connection with the
    target name, followed at once by the completion callback with [null]; no
    other [use] and no other invocation happened before. *)
Theorem selection_and_success_end_the_run σ l o callback d w :
  σ !! l = Some o ->
  world_of (bootstrap σ (VObject l) callback d) = Some w ->
  (exists f, In (Callback f [VNull]) (trace w)) \/
  (exists c n, In (Use c n) (trace w)) ->
  exists pre : list event,
    trace w = (pre ++ [Use (get (this w)) (_database (this w));
                       Callback callback [VNull]])%list /\
    selections pre = [] /\ callbacks pre = [].
Proof.
  intros Hobj.
  destruct (bootstrap_run σ l o callback d Hobj);
    intros Hw; try discriminate Hw; injection Hw as <-; cbv [world_at trace this get];
    intros [[f Hin]|[c [n Hin]]]; simpl in Hin;
    repeat (destruct Hin as [Hin|Hin];
            [try discriminate Hin; try (injection Hin as _ ->; discriminate)
            |]);
    try contradiction.
  all: first
    [ by exists [Connect (VObject l) (store_after σ l o);
                 Invoked (connect_reply error connection);
                 DbListRun connection;
                 Invoked (dbList_reply error' dbList)]
    | by exists [Connect (VObject l) (store_after σ l o);
                 Invoked (connect_reply error connection);
                 DbListRun connection;
                 Invoked (dbList_reply error' dbList);
                 DbCreateRun (database_of o) connection;
                 Invoked (dbCreate_reply error'' result)] ].
Qed.

Lemma selection_and_success_end_the_run_witness :
  exists pre : list event,
    [Connect (VObject 1%positive)
       (store_after sample_store 1%positive sample_options);
     Invoked (connect_reply VNull sample_connection);
     DbListRun sample_connection;
     Invoked (dbList_reply VNull [VString "other"; VString "testdb"]);
     Use sample_connection (database_of sample_options);
     Callback sample_callback [VNull]]
    = (pre ++ [Use sample_connection (database_of sample_options);
               Callback sample_callback [VNull]])%list /\
    selections pre = [] /\ callbacks pre = [].
Proof.
  apply (selection_and_success_end_the_run sample_store 1%positive
           sample_options sample_callback database_listed
           (world_at sample_store 1%positive sample_options
              (connected 1%positive sample_options sample_callback
                 sample_connection)
              [Invoked (connect_reply VNull sample_connection);
               DbListRun sample_connection;
               Invoked (dbList_reply VNull [VString "other"; VString "testdb"]);
               Use sample_connection (database_of sample_options);
               Callback sample_callback [VNull]])).
  - reflexivity.
  - reflexivity.
  - left. exists sample_callback. simpl. do 5 right. left. reflexivity.
Defined.

(** ** The fields behind the calls *)

Lemma database_of_set_db (o : object) (n : value) :
  database_of (set_prop o "db" n) = database_of o.
Proof.
  unfold database_of, get_prop, set_prop. simpl. by rewrite lookup_insert_ne.
Qed.

Lemma store_after_db (σ : store) (l : loc) (o : object) :
  read_prop (store_after σ l o) (VObject l) "db" = Some (database_of o).
Proof.
  unfold read_prop. rewrite store_after_lookup. simpl.
  by rewrite get_prop_set_prop.
Qed.

(** The store and the three fields that the constructor sets are the same
    at every point of a run. *)
Lemma run_fields σ l o callback d w :
  σ !! l = Some o ->
  world_of (bootstrap σ (VObject l) callback d) = Some w ->
  heap w = store_after σ l o /\
  _options (this w) = VObject l /\
  _callback (this w) = callback /\
  _database (this w) = database_of o.
Proof.
  intros Hobj.
  destruct (bootstrap_run σ l o callback d Hobj);
    intros Hw; try discriminate Hw; injection Hw as <-; done.
Qed.

(** X5. Every call is made from the fields of the instance.  At every point
    of a run, the connect request was issued on [this._options], the listing
    and creation requests and [use] on the connection that [get()] returns,
    creation and [use] for the name [this._database], and the completion
    callback is [this._callback]; that name is the [db] property of the
    caller's options object, so the database that is created and selected is
    the one the driver was given at connect. *)
Theorem calls_use_the_fields σ l o callback d w :
  σ !! l = Some o ->
  world_of (bootstrap σ (VObject l) callback d) = Some w ->
  (forall e : event, In e (trace w) -> uses_fields w e) /\
  _callback (this w) = callback /\
  _options (this w) = VObject l /\
  read_prop (heap w) (_options (this w)) "db" = Some (_database (this w)).
Proof.
  intros Hobj Hw.
  destruct (run_fields σ l o callback d w Hobj Hw) as (Hh & Ho & Hc & Hd).
  split; [|by rewrite Ho, Hh, Hd, store_after_db].
  clear Hh Ho Hc Hd. revert Hw.
  destruct (bootstrap_run σ l o callback d Hobj);
    intros Hw; try discriminate Hw; injection Hw as <-; intros e Hin; simpl in Hin;
    repeat (destruct Hin as [<-|Hin]; [done|]); contradiction.
Qed.

Lemma calls_use_the_fields_witness :
  (forall e : event,
     In e (trace (world_at sample_store 1%positive sample_options
                    (connected 1%positive sample_options sample_callback
                       sample_connection)
                    [Invoked (connect_reply VNull sample_connection);
                     DbListRun sample_connection])) ->
     uses_fields (world_at sample_store 1%positive sample_options
                    (connected 1%positive sample_options sample_callback
                       sample_connection)
                    [Invoked (connect_reply VNull sample_connection);
                     DbListRun sample_connection]) e) /\
  sample_callback = sample_callback /\
  VObject 1%positive = VObject 1%positive /\
  read_prop (store_after sample_store 1%positive sample_options)
    (VObject 1%positive) "db" = Some (database_of sample_options).
Proof.
  apply (calls_use_the_fields sample_store 1%positive sample_options
           sample_callback listing_pending
           (world_at sample_store 1%positive sample_options
              (connected 1%positive sample_options sample_callback
                 sample_connection)
              [Invoked (connect_reply VNull sample_connection);
               DbListRun sample_connection])); reflexivity.
Defined.

(** X6. The requests follow the handshake.  At every point of a run the
    requests sent to the driver are, in this order, connect, listing and
    creation, or a non-empty beginning of that sequence: no step is requested
    twice or out of turn.  [use] is called at most once and a run has at most
    eight events. *)
Theorem requests_follow_the_handshake σ l o callback d w :
  σ !! l = Some o ->
  world_of (bootstrap σ (VObject l) callback d) = Some w ->
  (exists rest : list (option step),
     handshake_steps
     = (List.map request_of (requests (trace w)) ++ rest)%list) /\
  requests (trace w) <> [] /\
  (length (selections (trace w)) <= 1)%nat /\
  (length (trace w) <= 8)%nat.
Proof.
  intros Hobj.
  destruct (bootstrap_run σ l o callback d Hobj);
    intros Hw; try discriminate Hw; injection Hw as <-; simpl;
    (split; [eexists; reflexivity|]); repeat split; (done || lia).
Qed.

Lemma requests_follow_the_handshake_witness :
  (exists rest : list (option step),
     handshake_steps
     = ([Some StepConnect; Some StepDbList] ++ rest)%list) /\
  [Connect (VObject 1%positive)
     (store_after sample_store 1%positive sample_options);
   DbListRun sample_connection] <> [] /\
  (length (@nil event) <= 1)%nat /\
  (length
     [Connect (VObject 1%positive)
        (store_after sample_store 1%positive sample_options);
      Invoked (connect_reply VNull sample_connection);
      DbListRun sample_connection] <= 8)%nat.
Proof.
  apply (requests_follow_the_handshake sample_store 1%positive sample_options
           sample_callback listing_pending
           (world_at sample_store 1%positive sample_options
              (connected 1%positive sample_options sample_callback
                 sample_connection)
              [Invoked (connect_reply VNull sample_connection);
               DbListRun sample_connection])); reflexivity.
Defined.

(** ** The options object, again *)

Lemma database_of_agree (o o' : object) :
  delete "db" (properties o') = delete "db" (properties o) ->
  database_of o' = database_of o.
Proof.
  intros Hsame. unfold database_of, get_prop.
  rewrite <- (lookup_delete_ne (properties o') "db" "database") by done.
  rewrite <- (lookup_delete_ne (properties o) "db" "database") by done.
  by rewrite Hsame.
Qed.

Lemma store_after_agree (σ : store) (l : loc) (o o' : object) :
  delete "db" (properties o') = delete "db" (properties o) ->
  extensible o' = extensible o ->
  store_after (<[l := o']> σ) l o' = store_after σ l o.
Proof.
  intros Hsame Hext. unfold store_after, set_prop.
  rewrite insert_insert_eq, (database_of_agree o o' Hsame), Hext.
  rewrite <- (insert_delete_eq (properties o')).
  rewrite <- (insert_delete_eq (properties o)).
  by rewrite Hsame.
Qed.

(** X7. Constructing twice on the same options object.  When a second
    [Connection] is constructed on the object the first constructor has
    written to, the store stays as the first left it and the second instance
    gets the same target name: the [db] property written by the first run does
    not change what the second one does. *)
Theorem constructor_twice σ l o callback d w callback' d' w' :
  σ !! l = Some o ->
  world_of (bootstrap σ (VObject l) callback d) = Some w ->
  world_of (bootstrap (heap w) (VObject l) callback' d') = Some w' ->
  heap w' = heap w /\ _database (this w') = _database (this w).
Proof.
  intros Hobj Hw Hw'.
  destruct (run_fields σ l o callback d w Hobj Hw) as (Hh & _ & _ & Hd).
  rewrite Hh in Hw'.
  destruct (run_fields _ l _ callback' d' w' (store_after_lookup σ l o) Hw')
    as (Hh' & _ & _ & Hd').
  rewrite Hh', Hd', Hh, Hd, database_of_set_db. split; [|reflexivity].
  unfold store_after. rewrite database_of_set_db.
  unfold set_prop. simpl. by rewrite !insert_insert_eq.
Qed.

Lemma constructor_twice_witness :
  store_after (store_after sample_store 1%positive sample_options) 1%positive
    (set_prop sample_options "db" (database_of sample_options))
  = store_after sample_store 1%positive sample_options /\
  database_of (set_prop sample_options "db" (database_of sample_options))
  = database_of sample_options.
Proof.
  apply (constructor_twice sample_store 1%positive sample_options
           sample_callback silent
           (world_at sample_store 1%positive sample_options
              (constructed 1%positive sample_options sample_callback) [])
           sample_callback silent
           (world_at (store_after sample_store 1%positive sample_options)
              1%positive
              (set_prop sample_options "db" (database_of sample_options))
              (constructed 1%positive
                 (set_prop sample_options "db" (database_of sample_options))
                 sample_callback) [])); reflexivity.
Defined.

(** X8. A [db] value supplied by the caller is ignored.  Two options objects
    on both of which [db] can be assigned, equally extensible, and with the
    same properties apart from [db], give the same run - the same events,
    the same instance and the same store afterwards: the constructor
    overwrites [db] with the target name and never reads it. *)
Theorem caller_db_is_ignored σ l o o' callback d :
  σ !! l = Some o ->
  can_write o "db" = true ->
  can_write o' "db" = true ->
  delete "db" (properties o') = delete "db" (properties o) ->
  extensible o' = extensible o ->
  bootstrap (<[l := o']> σ) (VObject l) callback d
  = bootstrap σ (VObject l) callback d.
Proof.
  intros Hobj Hcw Hcw' Hsame Hext.
  rewrite (constructor_connects σ l o callback Hobj Hcw d).
  rewrite (constructor_connects (<[l := o']> σ) l o' callback
             (lookup_insert_eq σ l o') Hcw' d).
  rewrite (store_after_agree σ l o o' Hsame Hext).
  unfold constructed. by rewrite (database_of_agree o o' Hsame).
Qed.

Lemma caller_db_is_ignored_witness :
  bootstrap (<[1%positive := own_db_options]> sample_store)
    (VObject 1%positive) sample_callback database_created
  = bootstrap sample_store (VObject 1%positive) sample_callback
      database_created.
Proof.
  apply (caller_db_is_ignored sample_store 1%positive sample_options
           own_db_options sample_callback database_created); reflexivity.
Defined.

(** ** The target name, again *)

(** X9. The target name is never falsy.  At every point of a run
    [this._database] is truthy - in particular it is not the empty string,
    [undefined] or [null] - and so is every name for which a creation is
    requested or [use] is called. *)
Theorem target_name_is_truthy σ l o callback d w :
  σ !! l = Some o ->
  world_of (bootstrap σ (VObject l) callback d) = Some w ->
  truthy (_database (this w)) = true /\
  _database (this w) <> VString "" /\
  (forall n c, In (DbCreateRun n c) (trace w) -> truthy n = true) /\
  (forall c n, In (Use c n) (trace w) -> truthy n = true).
Proof.
  intros Hobj Hw.
  destruct (run_fields σ l o callback d w Hobj Hw) as (_ & _ & _ & Hd).
  assert (Ht : truthy (_database (this w)) = true)
    by (rewrite Hd; apply database_of_truthy).
  split; [exact Ht|].
  split; [intros Heq; rewrite Heq in Ht; discriminate Ht|].
  clear Hd Ht. revert Hw.
  destruct (bootstrap_run σ l o callback d Hobj);
    intros Hw; try discriminate Hw; injection Hw as <-; split; intros ? ? Hin; simpl in Hin;
    repeat (destruct Hin as [Hin|Hin];
            [try discriminate Hin; injection Hin as <- <-;
             apply database_of_truthy|]);
    contradiction.
Qed.

Lemma target_name_is_truthy_witness :
  truthy (database_of empty_name_options) = true /\
  database_of empty_name_options <> VString "" /\
  (forall n c,
     In (DbCreateRun n c)
        [Connect (VObject 1%positive)
           (store_after empty_name_store 1%positive empty_name_options)] ->
     truthy n = true) /\
  (forall c n,
     In (Use c n)
        [Connect (VObject 1%positive)
           (store_after empty_name_store 1%positive empty_name_options)] ->
     truthy n = true).
Proof.
  apply (target_name_is_truthy empty_name_store 1%positive empty_name_options
           sample_callback silent
           (world_at empty_name_store 1%positive empty_name_options
              (constructed 1%positive empty_name_options sample_callback)
              [])); reflexivity.
Defined.

(** ** A run over time *)

(** X10. What has happened is not changed by what the driver does later.
    When the driver goes on to invoke callbacks it had not invoked yet, the
    trace of the run so far is the beginning of the longer trace and the
    store stays the same; and when the code had returned with no request
    outstanding, nothing is added: the run is over whatever the driver would
    still answer. *)
Theorem earlier_run_is_a_beginning σ l o callback d d' w w' :
  σ !! l = Some o ->
  later d d' ->
  world_of (bootstrap σ (VObject l) callback d) = Some w ->
  world_of (bootstrap σ (VObject l) callback d') = Some w' ->
  (exists rest : list event, trace w' = (trace w ++ rest)%list) /\
  heap w' = heap w /\
  (bootstrap σ (VObject l) callback d = Returned w -> w' = w).
Proof.
  intros Hobj (Hc & Hl & Hk).
  destruct (bootstrap_run σ l o callback d Hobj);
    intros Hw; try discriminate Hw; injection Hw as <-;
    destruct (bootstrap_run σ l o callback d' Hobj);
    intros Hw'; try discriminate Hw'; injection Hw' as <-;
    destruct Hc as [Hc|Hc]; try congruence;
    destruct Hl as [Hl|Hl]; try congruence;
    destruct Hk as [Hk|Hk]; try congruence;
    repeat match goal with
           | Hs : ?a = ?b, H1 : ?b = Some _, H2 : ?a = Some _ |- _ =>
               rewrite Hs, H1 in H2; injection H2 as <- <-
           end;
    try congruence;
    (split; [eexists; reflexivity|]); (split; [reflexivity|]);
    intros Hret; (discriminate Hret || reflexivity).
Qed.

Lemma earlier_run_is_a_beginning_witness :
  (exists rest : list event,
     [Connect (VObject 1%positive)
        (store_after sample_store 1%positive sample_options);
      Invoked (connect_reply VNull sample_connection);
      DbListRun sample_connection;
      Invoked (dbList_reply VNull [VString "other"; VString "testdb"]);
      Use sample_connection (database_of sample_options);
      Callback sample_callback [VNull]]
     = ([Connect (VObject 1%positive)
           (store_after sample_store 1%positive sample_options);
         Invoked (connect_reply VNull sample_connection);
         DbListRun sample_connection] ++ rest)%list) /\
  store_after sample_store 1%positive sample_options
  = store_after sample_store 1%positive sample_options /\
  (bootstrap sample_store (VObject 1%positive) sample_callback
     listing_pending
   = Returned
       (world_at sample_store 1%positive sample_options
          (connected 1%positive sample_options sample_callback
             sample_connection)
          [Invoked (connect_reply VNull sample_connection);
           DbListRun sample_connection]) ->
   world_at sample_store 1%positive sample_options
     (connected 1%positive sample_options sample_callback sample_connection)
     [Invoked (connect_reply VNull sample_connection);
      DbListRun sample_connection;
      Invoked (dbList_reply VNull [VString "other"; VString "testdb"]);
      Use sample_connection (database_of sample_options);
      Callback sample_callback [VNull]]
   = world_at sample_store 1%positive sample_options
       (connected 1%positive sample_options sample_callback
          sample_connection)
       [Invoked (connect_reply VNull sample_connection);
        DbListRun sample_connection]).
Proof.
  apply (earlier_run_is_a_beginning sample_store 1%positive sample_options
           sample_callback listing_pending database_listed
           (world_at sample_store 1%positive sample_options
              (connected 1%positive sample_options sample_callback
                 sample_connection)
              [Invoked (connect_reply VNull sample_connection);
               DbListRun sample_connection])
           (world_at sample_store 1%positive sample_options
              (connected 1%positive sample_options sample_callback
                 sample_connection)
              [Invoked (connect_reply VNull sample_connection);
               DbListRun sample_connection;
               Invoked (dbList_reply VNull [VString "other"; VString "testdb"]);
               Use sample_connection (database_of sample_options);
               Callback sample_callback [VNull]])).
  - reflexivity.
  - unfold later. simpl. auto.
  - reflexivity.
  - reflexivity.
Defined.
